(** * echo_limiter: a rate-limit middleware for the echo framework

  A shallow embedding of [NewWithConfig], [New] and [DefaultConfig] of
  package [echo_limiter], with the properties of the configuration
  resolver and of the per-request handler.

  The middleware talks to three collaborators whose code is not part of
  the package: the echo framework (the request context, the next stage
  of the pipeline), the go_limiter engine ([Allow]) and the wall clock.
  Every interaction with them is an event of a small free monad; a run
  of the handler against an arbitrary environment yields the list of
  the events performed, each with the answer it got. *)

From Stdlib Require Import ZArith NArith String List Bool Lia DecimalString.
From ExtLib Require Import Structures.Monad.
Import ListNotations.
Import MonadNotation.

Local Open Scope string_scope.
Local Open Scope Z_scope.
Local Open Scope monad_scope.

(** ** Standard-library values the package uses *)

Module http.
Definition StatusTooManyRequests : Z := 429.
Definition StatusInternalServerError : Z := 500.
End http.

Module time.
(** A [time.Duration] is a signed count of nanoseconds. *)
Definition Duration : Type := Z.
Definition Nanosecond : Duration := 1.
Definition Second : Duration := 1000000000 * Nanosecond.
Definition Minute : Duration := 60 * Second.

(** A [time.Time] is kept as the nanoseconds elapsed since the Unix
    epoch (the wall-clock reading; the monotonic reading plays no role
    in [Add] followed by [Unix]). *)
Definition Time : Type := Z.
Definition Add (t : Time) (d : Duration) : Time := t + d.
(** [Unix] is the number of whole seconds since the epoch. *)
Definition Unix (t : Time) : Z := t / Second.
End time.

Module strconv.
(** [strconv.FormatInt(i, 10)]: the decimal numeral of [i], with a
    leading minus sign for negative numbers. *)
Definition FormatInt (i : Z) : string := NilZero.string_of_int (Z.to_int i).
(** [strconv.Itoa(i)] is [FormatInt(int64(i), 10)]. *)
Definition Itoa (i : Z) : string := FormatInt i.
End strconv.

(** ** The engine's data ([go_limiter.Limit], [go_limiter.Result]) *)

Module go_limiter.
Record Limit : Type := mkLimit {
  Period : time.Duration;
  Algorithm : N;
  Rate : Z;
  Burst : Z
}.

Record Result : Type := mkResult {
  Allowed : bool;
  Remaining : Z;
  RetryAfter : time.Duration;
  ResetAfter : time.Duration
}.
End go_limiter.

(** The outcome of a Go call: it returns, or it panics with a value. *)
Inductive Outcome (V A : Type) : Type :=
| Done (a : A)
| Panicked (v : V).
Arguments Done {V A} a.
Arguments Panicked {V A} v.

(** ** Collaborators

    The types and constants the package takes from echo, go-redis and
    go_limiter: [*redis.Client] (a non-nil handle), [echo.Context],
    [echo.HandlerFunc], the errors the collaborators raise, the function
    values written by the caller of the package (one type per signature:
    [middleware.Skipper], [func(echo.Context) string],
    [func(echo.Context) error], [func(error, echo.Context) error]) and the
    algorithm identifiers of go_limiter. *)
Class Collaborators : Type := {
  redis_Client : Type;
  echo_Context : Type;
  echo_HandlerFunc : Type;
  ExtErr : Type;
  SkipperFun : Type;
  KeyFun : Type;
  LimitFun : Type;
  ErrFun : Type;
  go_limiter_SlidingWindowAlgorithm : N;
  go_limiter_GCRAAlgorithm : N
}.

Section EchoLimiter.

Context {W : Collaborators}.

(** Go [error] values; [nil] is [None] of [option error]. *)
Inductive error : Type :=
| ExtError (e : ExtErr)
| errors_New (text : string)
| NewHTTPError (code : Z) (message : error).

(** [go_limiter.NewLimiter(rdb)]. *)
Record Limiter : Type := NewLimiter { rdb : redis_Client }.

(** ** Function values stored in a configuration

    The closures the package itself creates are constructors; the
    caller's are opaque. *)
Inductive Skipper_t : Type :=
| middleware_DefaultSkipper
| SkipperOf (f : SkipperFun).

Inductive Key_t : Type :=
| Key_RealIP                 (* func(ctx) string { return ctx.RealIP() } *)
| KeyOf (f : KeyFun).

Inductive Handler_t : Type :=
| Handler_String             (* return ctx.String(config.StatusCode, config.Message) *)
| HandlerOf (f : LimitFun).

Inductive ErrHandler_t : Type :=
| ErrHandler_HTTPError       (* return echo.NewHTTPError(http.StatusInternalServerError, err) *)
| ErrHandlerOf (f : ErrFun).

(** ** Constants *)

Definition SlidingWindowAlgorithm : N := go_limiter_SlidingWindowAlgorithm.
Definition GCRAAlgorithm : N := go_limiter_GCRAAlgorithm.
Definition DefaultKeyPrefix : string := "echo_limiter".
Definition defaultMessage : string := "Too many requests, please try again later.".
Definition defaultStatusCode : Z := http.StatusTooManyRequests.

(** ** Config *)

Record Config : Type := mkConfig {
  Skipper : option Skipper_t;
  Rediser : option redis_Client;
  Max : Z;
  Burst : Z;
  StatusCode : Z;
  Message : string;
  Algorithm : N;
  Prefix : string;
  SkipOnError : bool;
  Period : time.Duration;
  Key : option Key_t;
  Handler : option Handler_t;
  ErrHandler : option ErrHandler_t
}.

Definition DefaultConfig : Config := {|
  Skipper := Some middleware_DefaultSkipper;
  Rediser := None;
  Max := 10;
  Burst := 10;
  StatusCode := defaultStatusCode;
  Message := defaultMessage;
  Algorithm := SlidingWindowAlgorithm;
  Prefix := DefaultKeyPrefix;
  SkipOnError := false;
  Period := time.Minute;
  Key := Some Key_RealIP;
  Handler := None;
  ErrHandler := None
|}.

(** Assignments to one field of a configuration. *)
Definition set_Skipper (v : option Skipper_t) (c : Config) : Config :=
  mkConfig v (Rediser c) (Max c) (Burst c) (StatusCode c) (Message c) (Algorithm c)
           (Prefix c) (SkipOnError c) (Period c) (Key c) (Handler c) (ErrHandler c).
Definition set_Rediser (v : option redis_Client) (c : Config) : Config :=
  mkConfig (Skipper c) v (Max c) (Burst c) (StatusCode c) (Message c) (Algorithm c)
           (Prefix c) (SkipOnError c) (Period c) (Key c) (Handler c) (ErrHandler c).
Definition set_Max (v : Z) (c : Config) : Config :=
  mkConfig (Skipper c) (Rediser c) v (Burst c) (StatusCode c) (Message c) (Algorithm c)
           (Prefix c) (SkipOnError c) (Period c) (Key c) (Handler c) (ErrHandler c).
Definition set_Burst (v : Z) (c : Config) : Config :=
  mkConfig (Skipper c) (Rediser c) (Max c) v (StatusCode c) (Message c) (Algorithm c)
           (Prefix c) (SkipOnError c) (Period c) (Key c) (Handler c) (ErrHandler c).
Definition set_StatusCode (v : Z) (c : Config) : Config :=
  mkConfig (Skipper c) (Rediser c) (Max c) (Burst c) v (Message c) (Algorithm c)
           (Prefix c) (SkipOnError c) (Period c) (Key c) (Handler c) (ErrHandler c).
Definition set_Message (v : string) (c : Config) : Config :=
  mkConfig (Skipper c) (Rediser c) (Max c) (Burst c) (StatusCode c) v (Algorithm c)
           (Prefix c) (SkipOnError c) (Period c) (Key c) (Handler c) (ErrHandler c).
Definition set_Algorithm (v : N) (c : Config) : Config :=
  mkConfig (Skipper c) (Rediser c) (Max c) (Burst c) (StatusCode c) (Message c) v
           (Prefix c) (SkipOnError c) (Period c) (Key c) (Handler c) (ErrHandler c).
Definition set_Prefix (v : string) (c : Config) : Config :=
  mkConfig (Skipper c) (Rediser c) (Max c) (Burst c) (StatusCode c) (Message c) (Algorithm c)
           v (SkipOnError c) (Period c) (Key c) (Handler c) (ErrHandler c).
Definition set_Period (v : time.Duration) (c : Config) : Config :=
  mkConfig (Skipper c) (Rediser c) (Max c) (Burst c) (StatusCode c) (Message c) (Algorithm c)
           (Prefix c) (SkipOnError c) v (Key c) (Handler c) (ErrHandler c).
Definition set_Key (v : option Key_t) (c : Config) : Config :=
  mkConfig (Skipper c) (Rediser c) (Max c) (Burst c) (StatusCode c) (Message c) (Algorithm c)
           (Prefix c) (SkipOnError c) (Period c) v (Handler c) (ErrHandler c).
Definition set_Handler (v : option Handler_t) (c : Config) : Config :=
  mkConfig (Skipper c) (Rediser c) (Max c) (Burst c) (StatusCode c) (Message c) (Algorithm c)
           (Prefix c) (SkipOnError c) (Period c) (Key c) v (ErrHandler c).
Definition set_ErrHandler (v : option ErrHandler_t) (c : Config) : Config :=
  mkConfig (Skipper c) (Rediser c) (Max c) (Burst c) (StatusCode c) (Message c) (Algorithm c)
           (Prefix c) (SkipOnError c) (Period c) (Key c) (Handler c) v.

Definition set_SkipOnError (v : bool) (c : Config) : Config :=
  mkConfig (Skipper c) (Rediser c) (Max c) (Burst c) (StatusCode c) (Message c) (Algorithm c)
           (Prefix c) v (Period c) (Key c) (Handler c) (ErrHandler c).

(** [Config{Rediser: rediser}]: every other field at its zero value. *)
Definition Config_of_Rediser (rediser : option redis_Client) : Config :=
  mkConfig None rediser 0 0 0 "" 0%N "" false 0 None None None.

(** Zero values of the field types. *)
Definition is_nil {A : Type} (o : option A) : bool :=
  match o with None => true | Some _ => false end.
Definition is_empty (s : string) : bool :=
  match s with EmptyString => true | String _ _ => false end.

(** The conditional assignments of [NewWithConfig], one per field:
    [if config.X == zero { config.X = DefaultConfig.X }]. *)
Definition default_Skipper (config : Config) : Config :=
  if is_nil (Skipper config) then set_Skipper (Skipper DefaultConfig) config else config.

Definition default_Max (config : Config) : Config :=
  if Max config =? 0 then set_Max (Max DefaultConfig) config else config.

Definition default_Burst (config : Config) : Config :=
  if Burst config =? 0 then set_Burst (Burst DefaultConfig) config else config.

Definition default_StatusCode (config : Config) : Config :=
  if StatusCode config =? 0
  then set_StatusCode (StatusCode DefaultConfig) config else config.

Definition default_Message (config : Config) : Config :=
  if is_empty (Message config) then set_Message (Message DefaultConfig) config else config.

Definition default_Algorithm (config : Config) : Config :=
  if (Algorithm config =? 0)%N
  then set_Algorithm (Algorithm DefaultConfig) config else config.

Definition default_Prefix (config : Config) : Config :=
  if is_empty (Prefix config) then set_Prefix (Prefix DefaultConfig) config else config.

Definition default_Period (config : Config) : Config :=
  if Period config =? 0 then set_Period (Period DefaultConfig) config else config.

Definition default_Key (config : Config) : Config :=
  if is_nil (Key config) then set_Key (Key DefaultConfig) config else config.

(** The last two defaults are closures created on the spot. *)
Definition default_Handler (config : Config) : Config :=
  if is_nil (Handler config) then set_Handler (Some Handler_String) config else config.

Definition default_ErrHandler (config : Config) : Config :=
  if is_nil (ErrHandler config)
  then set_ErrHandler (Some ErrHandler_HTTPError) config else config.

(** The substitution of defaults of [NewWithConfig], in the order of the
    source. *)
Definition resolve (config : Config) : Config :=
  let config := default_Skipper config in
  let config := default_Max config in
  let config := default_Burst config in
  let config := default_StatusCode config in
  let config := default_Message config in
  let config := default_Algorithm config in
  let config := default_Prefix config in
  let config := default_Period config in
  let config := default_Key config in
  let config := default_Handler config in
  let config := default_ErrHandler config in
  config.

(** ** Effects of the per-request handler *)

Inductive Ev : Type -> Type :=
| CallSkipper (f : Skipper_t) (ctx : echo_Context) : Ev bool
| RealIP (ctx : echo_Context) : Ev string
| CallKey (f : KeyFun) (ctx : echo_Context) : Ev string
| Allow (l : Limiter) (key : string) (limit : go_limiter.Limit)
    : Ev (go_limiter.Result + error)
| LoggerError (ctx : echo_Context) (err : error) : Ev unit
| time_Now : Ev time.Time
| HeaderSet (ctx : echo_Context) (name value : string) : Ev unit
| CtxString (ctx : echo_Context) (code : Z) (s : string) : Ev (option error)
| CallHandler (f : LimitFun) (ctx : echo_Context) : Ev (option error)
| CallErrHandler (f : ErrFun) (err : error) (ctx : echo_Context) : Ev (option error)
| CallNext (next : echo_HandlerFunc) (ctx : echo_Context) : Ev (option error).

(** Programs: return, panic, or perform an event and go on with its
    answer. *)
Inductive Prog (R : Type) : Type :=
| Ret (r : R)
| Panic (v : error)
| Vis (X : Type) (e : Ev X) (k : X -> Prog R).
Arguments Ret {R} r.
Arguments Panic {R} v.
Arguments Vis {R X} e k.

Fixpoint Prog_bind {A B : Type} (p : Prog A) (f : A -> Prog B) : Prog B :=
  match p with
  | Ret a => f a
  | Panic v => Panic v
  | Vis e k => Vis e (fun x => Prog_bind (k x) f)
  end.

#[local] Instance Monad_Prog : Monad Prog :=
  {| ret := @Ret; bind := @Prog_bind |}.

Definition trigger {X : Type} (e : Ev X) : Prog X := Vis e Ret.

(** Calling a nil function value panics. *)
Definition nil_call : error :=
  errors_New "invalid memory address or nil pointer dereference".

(** [config.Skipper(ctx)] *)
Definition call_Skipper (config : Config) (ctx : echo_Context) : Prog bool :=
  match Skipper config with
  | Some f => trigger (CallSkipper f ctx)
  | None => Panic nil_call
  end.

(** The body of a key function: the closure of [DefaultConfig] reads
    the real IP of the caller. *)
Definition Key_event (f : Key_t) (ctx : echo_Context) : Ev string :=
  match f with
  | Key_RealIP => RealIP ctx
  | KeyOf g => CallKey g ctx
  end.

(** [config.Key(ctx)] *)
Definition call_Key (config : Config) (ctx : echo_Context) : Prog string :=
  match Key config with
  | Some f => trigger (Key_event f ctx)
  | None => Panic nil_call
  end.

(** The body of a limit handler: the closure of [NewWithConfig] reads
    the configuration it was created in. *)
Definition Handler_event (config : Config) (f : Handler_t) (ctx : echo_Context)
  : Ev (option error) :=
  match f with
  | Handler_String => CtxString ctx (StatusCode config) (Message config)
  | HandlerOf g => CallHandler g ctx
  end.

(** [config.Handler(ctx)] *)
Definition call_Handler (config : Config) (ctx : echo_Context) : Prog (option error) :=
  match Handler config with
  | Some f => trigger (Handler_event config f ctx)
  | None => Panic nil_call
  end.

(** [config.ErrHandler(err, ctx)] *)
Definition call_ErrHandler (config : Config) (err : error) (ctx : echo_Context)
  : Prog (option error) :=
  match ErrHandler config with
  | Some ErrHandler_HTTPError =>
      ret (Some (NewHTTPError http.StatusInternalServerError err))
  | Some (ErrHandlerOf f) => trigger (CallErrHandler f err ctx)
  | None => Panic nil_call
  end.

(** The function returned for every request:
    [func(ctx echo.Context) error] inside [NewWithConfig]. *)
Definition handle (config : Config) (limiter : Limiter) (limit : go_limiter.Limit)
           (next : echo_HandlerFunc) (ctx : echo_Context) : Prog (option error) :=
  skip <- call_Skipper config ctx ;;
  if skip : bool then trigger (CallNext next ctx)
  else
    key <- call_Key config ctx ;;
    r <- trigger (Allow limiter key limit) ;;
    match r with
    | inr err =>
        trigger (LoggerError ctx err) ;;
        if SkipOnError config then trigger (CallNext next ctx)
        else call_ErrHandler config err ctx
    | inl result =>
        if negb (go_limiter.Allowed result) then
          now <- trigger time_Now ;;
          trigger (HeaderSet ctx "Retry-After"
                     (strconv.FormatInt
                        (time.Unix (time.Add now (go_limiter.RetryAfter result))))) ;;
          call_Handler config ctx
        else
          trigger (HeaderSet ctx "X-RateLimit-Limit" (strconv.Itoa (Max config))) ;;
          trigger (HeaderSet ctx "X-RateLimit-Remaining"
                     (strconv.FormatInt (go_limiter.Remaining result))) ;;
          now <- trigger time_Now ;;
          trigger (HeaderSet ctx "X-RateLimit-Reset"
                     (strconv.FormatInt
                        (time.Unix (time.Add now (go_limiter.ResetAfter result))))) ;;
          trigger (CallNext next ctx)
    end.

(** [echo.MiddlewareFunc] *)
Definition MiddlewareFunc : Type :=
  echo_HandlerFunc -> echo_Context -> Prog (option error).

Definition limit_of (config : Config) : go_limiter.Limit :=
  {| go_limiter.Period := Period config;
     go_limiter.Algorithm := Algorithm config;
     go_limiter.Rate := Max config;
     go_limiter.Burst := Burst config |}.

Definition NewWithConfig (config : Config) : Outcome error MiddlewareFunc :=
  match Rediser config with
  | None => Panicked (errors_New "redis client is missing")
  | Some rediser =>
      let config := resolve config in
      let limiter := NewLimiter rediser in
      let limit := limit_of config in
      Done (fun next ctx => handle config limiter limit next ctx)
  end.

Definition New (rediser : option redis_Client) : Outcome error MiddlewareFunc :=
  let config := DefaultConfig in
  let config := set_Rediser rediser config in
  NewWithConfig config.

(** ** Running a program

    An observation is an event together with the answer it received; an
    environment answers every event and keeps a state of its own (the
    counters of the engine, the clock, the response under construction,
    whatever the callbacks touch). *)
Inductive Obs : Type :=
| Observed (X : Type) (e : Ev X) (x : X).
Arguments Observed {X} e x.

Definition Env (S : Type) : Type := forall X : Type, Ev X -> S -> X * S.

Fixpoint run {S R : Type} (env : Env S) (p : Prog R) (s : S)
  : list Obs * Outcome error R * S :=
  match p with
  | Ret r => ([], Done r, s)
  | Panic v => ([], Panicked v, s)
  | Vis e k =>
      let (x, s1) := env _ e s in
      let '(tr, out, s2) := run env (k x) s1 in
      (Observed e x :: tr, out, s2)
  end.

(** ** Running a program whose calls may panic

    A Go call either returns or panics, and the handler recovers from
    nothing: a panic of a callback, of the engine or of the framework ends
    the handling of the request. A panicking environment answers an event
    with a value or with a panic; the run stops at the first panic and
    names the call that raised it. The trace holds the calls that
    returned. *)
Inductive AnyEv : Type :=
| Any (X : Type) (e : Ev X).
Arguments Any {X} e.

Inductive Ending (R : Type) : Type :=
| Returns (r : R)
| PanicsIn (call : AnyEv) (v : error)
| PanicsWith (v : error).
Arguments Returns {R} r.
Arguments PanicsIn {R} call v.
Arguments PanicsWith {R} v.

Definition PanicEnv (S : Type) : Type :=
  forall X : Type, Ev X -> S -> Outcome error X * S.

Fixpoint exec {S R : Type} (env : PanicEnv S) (p : Prog R) (s : S)
  : list Obs * Ending R * S :=
  match p with
  | Ret r => ([], Returns r, s)
  | Panic v => ([], PanicsWith v, s)
  | Vis e k =>
      match env _ e s with
      | (Done x, s1) =>
          let '(tr, out, s2) := exec env (k x) s1 in
          (Observed e x :: tr, out, s2)
      | (Panicked v, s1) => ([], PanicsIn (Any e) v, s1)
      end
  end.

(** An environment whose calls all return, as a panicking one. *)
Definition returning {S : Type} (env : Env S) : PanicEnv S :=
  fun X e s => let (x, s1) := env X e s in (Done x, s1).

Definition ending_of {R : Type} (out : Outcome error R) : Ending R :=
  match out with
  | Done r => Returns r
  | Panicked v => PanicsWith v
  end.

(** ** What a trace shows *)

(** Answers of the skip predicate. *)
Definition skipper_answers (tr : list Obs) : list bool :=
  flat_map (fun o => match o with
                     | Observed (CallSkipper _ _) b => [b]
                     | _ => []
                     end) tr.

(** Answers of the key function. *)
Definition key_answers (tr : list Obs) : list string :=
  flat_map (fun o => match o with
                     | Observed (RealIP _) k => [k]
                     | Observed (CallKey _ _) k => [k]
                     | _ => []
                     end) tr.

(** Calls of the engine, and their answers. *)
Definition allow_calls (tr : list Obs) : list (Limiter * string * go_limiter.Limit) :=
  flat_map (fun o => match o with
                     | Observed (Allow l key limit) _ => [(l, key, limit)]
                     | _ => []
                     end) tr.

Definition allow_answers (tr : list Obs) : list (go_limiter.Result + error) :=
  flat_map (fun o => match o with
                     | Observed (Allow _ _ _) r => [r]
                     | _ => []
                     end) tr.

(** Response headers written, in order. *)
Definition headers_set (tr : list Obs) : list (string * string) :=
  flat_map (fun o => match o with
                     | Observed (HeaderSet _ name value) _ => [(name, value)]
                     | _ => []
                     end) tr.

(** Readings of the clock. *)
Definition clock_reads (tr : list Obs) : list time.Time :=
  flat_map (fun o => match o with
                     | Observed time_Now t => [t]
                     | _ => []
                     end) tr.

(** Errors sent to the logger. *)
Definition logged (tr : list Obs) : list error :=
  flat_map (fun o => match o with
                     | Observed (LoggerError _ err) _ => [err]
                     | _ => []
                     end) tr.

(** Calls of the next stage, with what it returned. *)
Definition forwards (tr : list Obs)
  : list (echo_HandlerFunc * echo_Context * option error) :=
  flat_map (fun o => match o with
                     | Observed (CallNext next ctx) r => [(next, ctx, r)]
                     | _ => []
                     end) tr.

(** Results of the limit handler, and the status and body written by
    [ctx.String]. *)
Definition limit_handler_results (tr : list Obs) : list (option error) :=
  flat_map (fun o => match o with
                     | Observed (CtxString _ _ _) r => [r]
                     | Observed (CallHandler _ _) r => [r]
                     | _ => []
                     end) tr.

Definition string_writes (tr : list Obs) : list (Z * string) :=
  flat_map (fun o => match o with
                     | Observed (CtxString _ code s) _ => [(code, s)]
                     | _ => []
                     end) tr.



(** Calls of a caller-supplied engine-error handler, with what it
    returned. *)
Definition err_handler_calls (tr : list Obs)
  : list (ErrFun * error * echo_Context * option error) :=
  flat_map (fun o => match o with
                     | Observed (CallErrHandler f err ctx) r => [(f, err, ctx, r)]
                     | _ => []
                     end) tr.

(** Errors among the answers of the engine. *)
Definition engine_errors (tr : list Obs) : list error :=
  flat_map (fun a => match a with
                     | inr err => [err]
                     | inl _ => []
                     end) (allow_answers tr).

(** The names of the rate-limit headers. *)
Definition quota_headers : list string :=
  ["X-RateLimit-Limit"; "X-RateLimit-Remaining"; "X-RateLimit-Reset"].

Definition rate_limit_headers : list string := quota_headers ++ ["Retry-After"].

(** ** The paths of the handler

    [handled config l limit next ctx tr out]: [tr] and [out] are the
    trace and the outcome of one of the six ways through the handler. *)
Inductive handled (config : Config) (l : Limiter) (limit : go_limiter.Limit)
          (next : echo_HandlerFunc) (ctx : echo_Context)
  : list Obs -> Outcome error (option error) -> Prop :=
| handled_skip sk r :
    Skipper config = Some sk ->
    handled config l limit next ctx
      [Observed (CallSkipper sk ctx) true; Observed (CallNext next ctx) r]
      (Done r)
| handled_fail_open sk kf key err r :
    Skipper config = Some sk -> Key config = Some kf ->
    SkipOnError config = true ->
    handled config l limit next ctx
      [Observed (CallSkipper sk ctx) false; Observed (Key_event kf ctx) key;
       Observed (Allow l key limit) (inr err); Observed (LoggerError ctx err) tt;
       Observed (CallNext next ctx) r]
      (Done r)
| handled_fail_closed sk kf key err :
    Skipper config = Some sk -> Key config = Some kf ->
    SkipOnError config = false -> ErrHandler config = Some ErrHandler_HTTPError ->
    handled config l limit next ctx
      [Observed (CallSkipper sk ctx) false; Observed (Key_event kf ctx) key;
       Observed (Allow l key limit) (inr err); Observed (LoggerError ctx err) tt]
      (Done (Some (NewHTTPError http.StatusInternalServerError err)))
| handled_fail_closed_custom sk kf key err f r :
    Skipper config = Some sk -> Key config = Some kf ->
    SkipOnError config = false -> ErrHandler config = Some (ErrHandlerOf f) ->
    handled config l limit next ctx
      [Observed (CallSkipper sk ctx) false; Observed (Key_event kf ctx) key;
       Observed (Allow l key limit) (inr err); Observed (LoggerError ctx err) tt;
       Observed (CallErrHandler f err ctx) r]
      (Done r)
| handled_denied sk kf key result now hf r :
    Skipper config = Some sk -> Key config = Some kf -> Handler config = Some hf ->
    go_limiter.Allowed result = false ->
    handled config l limit next ctx
      [Observed (CallSkipper sk ctx) false; Observed (Key_event kf ctx) key;
       Observed (Allow l key limit) (inl result); Observed time_Now now;
       Observed (HeaderSet ctx "Retry-After"
                   (strconv.FormatInt
                      (time.Unix (time.Add now (go_limiter.RetryAfter result))))) tt;
       Observed (Handler_event config hf ctx) r]
      (Done r)
| handled_allowed sk kf key result now r :
    Skipper config = Some sk -> Key config = Some kf ->
    go_limiter.Allowed result = true ->
    handled config l limit next ctx
      [Observed (CallSkipper sk ctx) false; Observed (Key_event kf ctx) key;
       Observed (Allow l key limit) (inl result);
       Observed (HeaderSet ctx "X-RateLimit-Limit" (strconv.Itoa (Max config))) tt;
       Observed (HeaderSet ctx "X-RateLimit-Remaining"
                   (strconv.FormatInt (go_limiter.Remaining result))) tt;
       Observed time_Now now;
       Observed (HeaderSet ctx "X-RateLimit-Reset"
                   (strconv.FormatInt
                      (time.Unix (time.Add now (go_limiter.ResetAfter result))))) tt;
       Observed (CallNext next ctx) r]
      (Done r).

End EchoLimiter.

Arguments Ret {W R} r.
Arguments Panic {W R} v.
Arguments Vis {W R X} e k.
Arguments Observed {W X} e x.
Arguments Any {W X} e.
Arguments Returns {W R} r.
Arguments PanicsIn {W R} call v.
Arguments PanicsWith {W R} v.

(** ** A small concrete world

    Used to run the middleware on explicit requests: contexts are the
    caller's address, the engine answers what it is told to, the clock
    shows a fixed time, and the state of the environment is the response
    under construction. *)
Module Example.

Definition world : Collaborators := {|
  redis_Client := unit;
  echo_Context := string;
  echo_HandlerFunc := unit;
  ExtErr := string;
  SkipperFun := bool;
  KeyFun := string;
  LimitFun := string;
  ErrFun := Z;
  go_limiter_SlidingWindowAlgorithm := 2;
  go_limiter_GCRAAlgorithm := 1
|}.

#[local] Existing Instance world.

Record Response : Type := mkResponse {
  header : list (string * string);
  status : Z;
  body : string
}.

Definition fresh : Response := mkResponse [] 0 "".

(** [SkipperOf b] answers [b]; [KeyOf tag] answers the tag followed by
    the address; [HandlerOf text] writes 429 and the text;
    [ErrHandlerOf code] returns an HTTP error with that code; the next
    stage writes 200. *)
Definition env (engine : go_limiter.Result + error) (clock : time.Time)
  : Env Response :=
  fun X e =>
    match e in Ev X return Response -> X * Response with
    | CallSkipper f _ =>
        fun s => (match f with middleware_DefaultSkipper => false | SkipperOf b => b end, s)
    | RealIP ctx => fun s => (ctx, s)
    | CallKey tag ctx => fun s => (tag ++ ctx, s)
    | Allow _ _ _ => fun s => (engine, s)
    | LoggerError _ _ => fun s => (tt, s)
    | time_Now => fun s => (clock, s)
    | HeaderSet _ name value =>
        fun s => (tt, mkResponse (header s ++ [(name, value)]) (status s) (body s))
    | CtxString _ code text => fun s => (None, mkResponse (header s) code text)
    | CallHandler text _ => fun s => (None, mkResponse (header s) 429 text)
    | CallErrHandler code err _ => fun s => (Some (NewHTTPError code err), s)
    | CallNext _ _ => fun s => (None, mkResponse (header s) 200 "Hello, World!")
    end.

(** A configuration that only names the engine handle, and the one of
    the package's example program. *)
Definition only_rediser : Config := set_Rediser (Some tt) (mkConfig
  None None 0 0 0 "" 0%N "" false 0 None None None).

Definition readme_config : Config := mkConfig
  None (Some tt) 3 3 0 "" GCRAAlgorithm "" false (10 * time.Second) None None None.

Definition refused : error := ExtError "connection refused".
Definition failed : go_limiter.Result + error := inr refused.

(** The handler [NewWithConfig] builds for a configuration whose engine
    handle is set. *)
Definition handler_of (cfg : Config) : MiddlewareFunc :=
  handle (resolve cfg) (NewLimiter tt) (limit_of (resolve cfg)).

(** Configurations that change one thing. *)
Definition skipping_config : Config :=
  set_Skipper (Some (SkipperOf true)) readme_config.

Definition fail_open_config : Config := mkConfig
  None (Some tt) 3 3 0 "" GCRAAlgorithm "" true (10 * time.Second) None None None.

Definition status500_config : Config := set_StatusCode 500 readme_config.

Definition negative_max_config : Config := set_Max (-5) readme_config.

Definition prefixed_config : Config := set_Prefix "api" readme_config.

(** Environments: at 2020-04-03 13:02:00 and 7 nanoseconds the engine
    allows with 2 left and a reset in 5 s, denies with a retry in 30 s, or
    fails. *)
Definition at_time : time.Time := 1585918920 * time.Second + 7.

Definition allowed_result : go_limiter.Result :=
  go_limiter.mkResult true 2 0 (5 * time.Second).

Definition denied_result : go_limiter.Result :=
  go_limiter.mkResult false 0 (30 * time.Second) (30 * time.Second).

Definition env_allowed : Env Response := env (inl allowed_result) at_time.
Definition env_denied : Env Response := env (inl denied_result) at_time.
Definition env_failed : Env Response := env failed at_time.

(** The trace, the outcome and the response of a request from
    10.0.0.1. *)
Definition request (e : Env Response) (cfg : Config)
  : list Obs * Outcome error (option error) * Response :=
  run e (handler_of cfg tt "10.0.0.1") fresh.

Definition trace (e : Env Response) (cfg : Config) : list Obs :=
  fst (fst (request e cfg)).
Definition outcome (e : Env Response) (cfg : Config) : Outcome error (option error) :=
  snd (fst (request e cfg)).
Definition response (e : Env Response) (cfg : Config) : Response :=
  snd (request e cfg).

(** The same environment with the status check of the framework:
    [ctx.String] hands the status to [WriteHeader] of net/http, which
    panics on a code below 100 or above 999 and writes nothing. Every
    other call returns. *)
Definition invalid_WriteHeader_code : error := errors_New "invalid WriteHeader code".

Definition echo_env (engine : go_limiter.Result + error) (clock : time.Time)
  : PanicEnv Response :=
  fun X e =>
    match e in Ev X return Response -> Outcome error X * Response with
    | CtxString _ code text =>
        fun s => if (100 <=? code) && (code <=? 999)
                 then (Done None, mkResponse (header s) code text)
                 else (Panicked invalid_WriteHeader_code, s)
    | e' => fun s => returning (env engine clock) _ e' s
    end.

Definition invalid_status_config : Config := set_StatusCode (-1) readme_config.


Definition request_exec (e : PanicEnv Response) (cfg : Config)
  : list Obs * Ending (option error) * Response :=
  exec e (handler_of cfg tt "10.0.0.1") fresh.

Definition ending (e : PanicEnv Response) (cfg : Config) : Ending (option error) :=
  snd (fst (request_exec e cfg)).
Definition response_exec (e : PanicEnv Response) (cfg : Config) : Response :=
  snd (request_exec e cfg).

Definition echo_denied : PanicEnv Response := echo_env (inl denied_result) at_time.

End Example.

(** * Properties *)

Section Properties.

Context {W : Collaborators}.

(** ** The configuration resolver *)

Lemma default_Skipper_eq (c : Config) :
  default_Skipper c =
  mkConfig (Some (match Skipper c with Some f => f | None => middleware_DefaultSkipper end))
    (Rediser c) (Max c) (Burst c) (StatusCode c) (Message c) (Algorithm c)
    (Prefix c) (SkipOnError c) (Period c) (Key c) (Handler c) (ErrHandler c).
Proof. unfold default_Skipper. destruct c as [[sk|] ? ? ? ? ? ? ? ? ? ? ? ?]; reflexivity. Qed.

Lemma default_Max_eq (c : Config) :
  default_Max c =
  mkConfig (Skipper c) (Rediser c) (if Max c =? 0 then 10 else Max c) (Burst c)
    (StatusCode c) (Message c) (Algorithm c)
    (Prefix c) (SkipOnError c) (Period c) (Key c) (Handler c) (ErrHandler c).
Proof. unfold default_Max. destruct (Max c =? 0); destruct c; reflexivity. Qed.

Lemma default_Burst_eq (c : Config) :
  default_Burst c =
  mkConfig (Skipper c) (Rediser c) (Max c) (if Burst c =? 0 then 10 else Burst c)
    (StatusCode c) (Message c) (Algorithm c)
    (Prefix c) (SkipOnError c) (Period c) (Key c) (Handler c) (ErrHandler c).
Proof. unfold default_Burst. destruct (Burst c =? 0); destruct c; reflexivity. Qed.

Lemma default_StatusCode_eq (c : Config) :
  default_StatusCode c =
  mkConfig (Skipper c) (Rediser c) (Max c) (Burst c)
    (if StatusCode c =? 0 then 429 else StatusCode c) (Message c) (Algorithm c)
    (Prefix c) (SkipOnError c) (Period c) (Key c) (Handler c) (ErrHandler c).
Proof. unfold default_StatusCode. destruct (StatusCode c =? 0); destruct c; reflexivity. Qed.

Lemma default_Message_eq (c : Config) :
  default_Message c =
  mkConfig (Skipper c) (Rediser c) (Max c) (Burst c) (StatusCode c)
    (if is_empty (Message c) then defaultMessage else Message c) (Algorithm c)
    (Prefix c) (SkipOnError c) (Period c) (Key c) (Handler c) (ErrHandler c).
Proof. unfold default_Message. destruct (is_empty (Message c)); destruct c; reflexivity. Qed.

Lemma default_Algorithm_eq (c : Config) :
  default_Algorithm c =
  mkConfig (Skipper c) (Rediser c) (Max c) (Burst c) (StatusCode c) (Message c)
    (if (Algorithm c =? 0)%N then SlidingWindowAlgorithm else Algorithm c)
    (Prefix c) (SkipOnError c) (Period c) (Key c) (Handler c) (ErrHandler c).
Proof. unfold default_Algorithm. destruct (Algorithm c =? 0)%N; destruct c; reflexivity. Qed.

Lemma default_Prefix_eq (c : Config) :
  default_Prefix c =
  mkConfig (Skipper c) (Rediser c) (Max c) (Burst c) (StatusCode c) (Message c)
    (Algorithm c) (if is_empty (Prefix c) then DefaultKeyPrefix else Prefix c)
    (SkipOnError c) (Period c) (Key c) (Handler c) (ErrHandler c).
Proof. unfold default_Prefix. destruct (is_empty (Prefix c)); destruct c; reflexivity. Qed.

Lemma default_Period_eq (c : Config) :
  default_Period c =
  mkConfig (Skipper c) (Rediser c) (Max c) (Burst c) (StatusCode c) (Message c)
    (Algorithm c) (Prefix c) (SkipOnError c)
    (if Period c =? 0 then time.Minute else Period c) (Key c) (Handler c) (ErrHandler c).
Proof. unfold default_Period. destruct (Period c =? 0); destruct c; reflexivity. Qed.

Lemma default_Key_eq (c : Config) :
  default_Key c =
  mkConfig (Skipper c) (Rediser c) (Max c) (Burst c) (StatusCode c) (Message c)
    (Algorithm c) (Prefix c) (SkipOnError c) (Period c)
    (Some (match Key c with Some f => f | None => Key_RealIP end))
    (Handler c) (ErrHandler c).
Proof. unfold default_Key. destruct c as [? ? ? ? ? ? ? ? ? ? [k|] ? ?]; reflexivity. Qed.

Lemma default_Handler_eq (c : Config) :
  default_Handler c =
  mkConfig (Skipper c) (Rediser c) (Max c) (Burst c) (StatusCode c) (Message c)
    (Algorithm c) (Prefix c) (SkipOnError c) (Period c) (Key c)
    (Some (match Handler c with Some f => f | None => Handler_String end))
    (ErrHandler c).
Proof. unfold default_Handler. destruct c as [? ? ? ? ? ? ? ? ? ? ? [h|] ?]; reflexivity. Qed.

Lemma default_ErrHandler_eq (c : Config) :
  default_ErrHandler c =
  mkConfig (Skipper c) (Rediser c) (Max c) (Burst c) (StatusCode c) (Message c)
    (Algorithm c) (Prefix c) (SkipOnError c) (Period c) (Key c) (Handler c)
    (Some (match ErrHandler c with Some f => f | None => ErrHandler_HTTPError end)).
Proof. unfold default_ErrHandler. destruct c as [? ? ? ? ? ? ? ? ? ? ? ? [h|]]; reflexivity. Qed.

Ltac fields :=
  cbn [Skipper Rediser Max Burst StatusCode Message Algorithm Prefix SkipOnError
       Period Key Handler ErrHandler].
Tactic Notation "fields" "in" hyp(H) :=
  cbn [Skipper Rediser Max Burst StatusCode Message Algorithm Prefix SkipOnError
       Period Key Handler ErrHandler] in H.

(** The resolved configuration, field by field. *)
Lemma resolve_eq (cfg : Config) :
  resolve cfg =
  {| Skipper := Some (match Skipper cfg with Some f => f | None => middleware_DefaultSkipper end);
     Rediser := Rediser cfg;
     Max := if Max cfg =? 0 then 10 else Max cfg;
     Burst := if Burst cfg =? 0 then 10 else Burst cfg;
     StatusCode := if StatusCode cfg =? 0 then 429 else StatusCode cfg;
     Message := if is_empty (Message cfg) then defaultMessage else Message cfg;
     Algorithm := if (Algorithm cfg =? 0)%N then SlidingWindowAlgorithm else Algorithm cfg;
     Prefix := if is_empty (Prefix cfg) then DefaultKeyPrefix else Prefix cfg;
     SkipOnError := SkipOnError cfg;
     Period := if Period cfg =? 0 then time.Minute else Period cfg;
     Key := Some (match Key cfg with Some f => f | None => Key_RealIP end);
     Handler := Some (match Handler cfg with Some f => f | None => Handler_String end);
     ErrHandler :=
       Some (match ErrHandler cfg with Some f => f | None => ErrHandler_HTTPError end)
  |}.
Proof.
  unfold resolve. cbv zeta.
  rewrite default_Skipper_eq.
  rewrite default_Max_eq; fields.
  rewrite default_Burst_eq; fields.
  rewrite default_StatusCode_eq; fields.
  rewrite default_Message_eq; fields.
  rewrite default_Algorithm_eq; fields.
  rewrite default_Prefix_eq; fields.
  rewrite default_Period_eq; fields.
  rewrite default_Key_eq; fields.
  rewrite default_Handler_eq; fields.
  rewrite default_ErrHandler_eq; fields.
  reflexivity.
Qed.

(** After resolution no function field is nil. *)
Definition complete (config : Config) : Prop :=
  Skipper config <> None /\ Key config <> None /\
  Handler config <> None /\ ErrHandler config <> None.

Lemma resolve_complete (cfg : Config) : complete (resolve cfg).
Proof. rewrite resolve_eq. repeat split; discriminate. Qed.

(** ** Runs of the handler *)

Ltac exec H := cbn [bind ret Monad_Prog run Prog_bind trigger negb] in H.

(** One event of the run in [H]: name its answer and the next state. *)
Ltac step H :=
  exec H;
  match type of H with
  | context [let (_, _) := ?env ?X ?e ?s in _] =>
      match type of e with
      | Ev _ =>
          let x := fresh "x" in
          let s1 := fresh "s" in
          destruct (env X e s) as [x s1]; exec H
      end
  end.

(** Every run of the handler of a complete configuration follows one of
    the six paths, and none other. *)
Lemma run_handle (S : Type) (env : Env S) (s s' : S) (config : Config)
      (l : Limiter) (limit : go_limiter.Limit) (next : echo_HandlerFunc)
      (ctx : echo_Context) (tr : list Obs) (out : Outcome error (option error)) :
  complete config ->
  run env (handle config l limit next ctx) s = (tr, out, s') ->
  handled config l limit next ctx tr out.
Proof.
  intros (Hsk & Hk & Hh & He) Hrun.
  destruct (Skipper config) as [sk|] eqn:Esk; [|congruence].
  destruct (Key config) as [kf|] eqn:Ek; [|congruence].
  destruct (Handler config) as [hf|] eqn:Eh; [|congruence].
  destruct (ErrHandler config) as [ef|] eqn:Ee; [|congruence].
  unfold handle, call_Skipper, call_Key, call_Handler, call_ErrHandler in Hrun.
  rewrite Esk, Ek, Eh, Ee in Hrun.
  step Hrun. destruct x.
  - step Hrun. inversion Hrun; subst. now apply handled_skip.
  - step Hrun. step Hrun. destruct x0 as [result|err].
    + destruct (go_limiter.Allowed result) eqn:Ea.
      * repeat step Hrun. inversion Hrun; subst.
        destruct x0, x1, x3. now apply handled_allowed.
      * repeat step Hrun. inversion Hrun; subst.
        destruct x1. now eapply handled_denied; eauto.
    + step Hrun. destruct x0.
      destruct (SkipOnError config) eqn:Eo.
      * step Hrun. inversion Hrun; subst. now apply handled_fail_open.
      * destruct ef; exec Hrun.
        -- inversion Hrun; subst. now apply handled_fail_closed.
        -- step Hrun. inversion Hrun; subst. now apply handled_fail_closed_custom.
Qed.

(** A run always exists: the handler asks finitely many questions. *)
Lemma run_total (S R : Type) (env : Env S) (p : Prog R) (s : S) :
  exists tr out s', run env p s = (tr, out, s').
Proof.
  destruct (run env p s) as [[tr out] s']. now exists tr, out, s'.
Qed.

(** What [NewWithConfig] returns when it returns. *)
Lemma NewWithConfig_Done (cfg : Config) (mw : MiddlewareFunc) :
  NewWithConfig cfg = Done mw ->
  exists rd, Rediser cfg = Some rd /\
             mw = handle (resolve cfg) (NewLimiter rd) (limit_of (resolve cfg)).
Proof.
  unfold NewWithConfig. destruct (Rediser cfg) as [rd|]; [|discriminate].
  intros H. injection H as <-. now exists rd.
Qed.

Lemma served (S : Type) (env : Env S) (s s' : S) (cfg : Config) (mw : MiddlewareFunc)
      (next : echo_HandlerFunc) (ctx : echo_Context) (tr : list Obs)
      (out : Outcome error (option error)) :
  NewWithConfig cfg = Done mw ->
  run env (mw next ctx) s = (tr, out, s') ->
  exists rd, Rediser cfg = Some rd /\
             handled (resolve cfg) (NewLimiter rd) (limit_of (resolve cfg)) next ctx tr out.
Proof.
  intros Hnew Hrun. destruct (NewWithConfig_Done _ _ Hnew) as (rd & Hrd & ->).
  exists rd. split; [assumption|].
  eapply run_handle; [apply resolve_complete | eassumption].
Qed.

(** Case analysis on the path of a run, with the projections computed. *)
Ltac on_paths H :=
  repeat match goal with Hr : run _ _ _ = _ |- _ => clear Hr end;
  destruct H;
  repeat match goal with
         | kf : Key_t |- _ => destruct kf
         | hf : Handler_t |- _ => destruct hf
         end;
  cbn [skipper_answers key_answers allow_calls allow_answers headers_set clock_reads
       logged forwards limit_handler_results string_writes err_handler_calls
       flat_map app Key_event Handler_event In quota_headers rate_limit_headers] in *.

Ltac absurd_path :=
  repeat match goal with
         | H : False |- _ => destruct H
         | H : _ \/ _ |- _ => destruct H
         | H : _ = _ |- _ => discriminate H
         | H : inl _ = inl _ |- _ => injection H as H; subst
         | H : inr _ = inr _ |- _ => injection H as H; subst
         end;
  try congruence.

(** Whole seconds added to the clock show as such in the epoch time. *)
Lemma Unix_Add_seconds (now : time.Time) (n : Z) :
  time.Unix (time.Add now (n * time.Second)) = time.Unix now + n.
Proof.
  unfold time.Unix, time.Add. apply Z.div_add. discriminate.
Qed.

(** ** The per-request handler *)

(** C1. When the request is not skipped and the engine answers with a
    decision that allows it, the handler writes exactly the three quota
    headers: X-RateLimit-Limit with the resolved Max, X-RateLimit-Remaining
    with the remaining count and X-RateLimit-Reset with the epoch seconds of
    now plus ResetAfter; then it calls the next handler and returns its
    result. Conversely a run that writes one of these three headers is a
    run of that path. *)
Theorem allowed_sets_quota_headers
        (S : Type) (env : Env S) (s s' : S) (cfg : Config) (mw : MiddlewareFunc)
        (next : echo_HandlerFunc) (ctx : echo_Context) (tr : list Obs)
        (out : Outcome error (option error)) :
  NewWithConfig cfg = Done mw ->
  run env (mw next ctx) s = (tr, out, s') ->
  (forall result,
      In false (skipper_answers tr) ->
      In (inl result) (allow_answers tr) ->
      go_limiter.Allowed result = true ->
      exists now r,
        clock_reads tr = [now] /\
        headers_set tr =
          [("X-RateLimit-Limit", strconv.Itoa (Max (resolve cfg)));
           ("X-RateLimit-Remaining", strconv.FormatInt (go_limiter.Remaining result));
           ("X-RateLimit-Reset",
            strconv.FormatInt
              (time.Unix (time.Add now (go_limiter.ResetAfter result))))] /\
        forwards tr = [(next, ctx, r)] /\
        out = Done r)
  /\
  (forall name value,
      In (name, value) (headers_set tr) ->
      In name quota_headers ->
      skipper_answers tr = [false] /\
      exists result,
        allow_answers tr = [inl result] /\ go_limiter.Allowed result = true).
Proof.
  intros Hnew Hrun. destruct (served _ _ _ _ _ _ _ _ _ _ Hnew Hrun) as (rd & Hrd & Hpath).
  split.
  - intros res Hskip Hallow Hres.
    on_paths Hpath; absurd_path; exists now, r; repeat split; reflexivity.
  - intros name value Hin Hname.
    on_paths Hpath;
      try (split; [reflexivity | eexists; split; [reflexivity | assumption]]);
      absurd_path.
Qed.

(** A run in which every call returns is a run of [run]. *)
Lemma exec_returning (S R : Type) (env : Env S) (p : Prog R) (s : S) :
  exec (returning env) p s =
  let '(tr, out, s') := run env p s in (tr, ending_of out, s').
Proof.
  revert s. induction p as [r|v|X e k IH]; intros s; cbn [exec run]; try reflexivity.
  unfold returning at 1. destruct (env X e s) as [x s1].
  rewrite IH. now destruct (run env (k x) s1) as [[tr out] s2].
Qed.




(** C4. When the skip predicate answers true, the run consists of the
    call of the predicate and the call of the next handler, whose result is
    returned: the engine and the key function are not called and no header
    is written. *)
Theorem skipped_request_is_forwarded
        (S : Type) (env : Env S) (s s' : S) (cfg : Config) (mw : MiddlewareFunc)
        (next : echo_HandlerFunc) (ctx : echo_Context) (tr : list Obs)
        (out : Outcome error (option error)) :
  NewWithConfig cfg = Done mw ->
  run env (mw next ctx) s = (tr, out, s') ->
  In true (skipper_answers tr) ->
  exists sk r,
    Skipper (resolve cfg) = Some sk /\
    tr = [Observed (CallSkipper sk ctx) true; Observed (CallNext next ctx) r] /\
    out = Done r /\
    forwards tr = [(next, ctx, r)] /\
    allow_calls tr = [] /\
    key_answers tr = [] /\
    headers_set tr = [].
Proof.
  intros Hnew Hrun Hskip.
  destruct (served _ _ _ _ _ _ _ _ _ _ Hnew Hrun) as (rd & Hrd & Hpath).
  on_paths Hpath; absurd_path.
  exists sk, r. repeat split; auto.
Qed.

(** What the code passes to the engine: the limiter built on the
    configured handle, the answer of the key function as it is, and the
    limit of the resolved configuration. *)
Lemma engine_call_arguments
      (S : Type) (env : Env S) (s s' : S) (cfg : Config) (mw : MiddlewareFunc)
      (next : echo_HandlerFunc) (ctx : echo_Context) (tr : list Obs)
      (out : Outcome error (option error)) :
  NewWithConfig cfg = Done mw ->
  run env (mw next ctx) s = (tr, out, s') ->
  In false (skipper_answers tr) ->
  exists rd key,
    Rediser cfg = Some rd /\
    key_answers tr = [key] /\
    allow_calls tr = [(NewLimiter rd, key, limit_of (resolve cfg))].
Proof.
  intros Hnew Hrun Hskip.
  destruct (served _ _ _ _ _ _ _ _ _ _ Hnew Hrun) as (rd & Hrd & Hpath).
  on_paths Hpath; absurd_path; exists rd, key; repeat split; assumption.
Qed.

(** C3. When the request is not skipped and the engine call fails, the
    error is logged and no header is written. With SkipOnError the next
    handler is called and its result returned. Without it the next handler
    is not called: a caller-supplied ErrHandler is called with the error
    and the context and its result is returned; the default one returns an
    HTTP error with status 500, which equals the denial status exactly when
    the caller configured StatusCode 500. *)
Theorem engine_error_policy
        (S : Type) (env : Env S) (s s' : S) (cfg : Config) (mw : MiddlewareFunc)
        (next : echo_HandlerFunc) (ctx : echo_Context) (tr : list Obs)
        (out : Outcome error (option error)) (err : error) :
  NewWithConfig cfg = Done mw ->
  run env (mw next ctx) s = (tr, out, s') ->
  In false (skipper_answers tr) ->
  In (inr err) (allow_answers tr) ->
  logged tr = [err] /\
  headers_set tr = [] /\
  (SkipOnError cfg = true ->
   exists r, forwards tr = [(next, ctx, r)] /\ out = Done r) /\
  (SkipOnError cfg = false ->
   forwards tr = [] /\
   match ErrHandler cfg with
   | Some (ErrHandlerOf f) =>
       exists r, err_handler_calls tr = [(f, err, ctx, r)] /\ out = Done r
   | _ =>
       err_handler_calls tr = [] /\
       out = Done (Some (NewHTTPError http.StatusInternalServerError err)) /\
       (http.StatusInternalServerError = StatusCode (resolve cfg) <->
        StatusCode cfg = 500)
   end).
Proof.
  intros Hnew Hrun Hskip Hallow.
  destruct (served _ _ _ _ _ _ _ _ _ _ Hnew Hrun) as (rd & Hrd & Hpath).
  assert (Hso : SkipOnError (resolve cfg) = SkipOnError cfg)
    by (rewrite resolve_eq; reflexivity).
  assert (Heh : ErrHandler (resolve cfg) =
                Some (match ErrHandler cfg with
                      | Some f => f
                      | None => ErrHandler_HTTPError
                      end))
    by (rewrite resolve_eq; reflexivity).
  assert (Hsc : http.StatusInternalServerError = StatusCode (resolve cfg) <->
                StatusCode cfg = 500).
  { rewrite resolve_eq. cbn [StatusCode]. unfold http.StatusInternalServerError.
    destruct (Z.eqb_spec (StatusCode cfg) 0); lia. }
  destruct (ErrHandler cfg) as [[|g]|]; on_paths Hpath; absurd_path.
  all: repeat apply conj; try reflexivity; intros Hs; try congruence.
  all: try (eexists; split; reflexivity).
  all: split; [reflexivity|].
  all: try (split; [reflexivity | split; [reflexivity | exact Hsc]]).
  all: match goal with
       | H : ErrHandler _ = Some (ErrHandlerOf ?f) |- _ =>
           assert (f = g) as -> by congruence
       end.
  all: eexists; split; reflexivity.
Qed.

(** A default that is not zero is not replaced a second time. *)
Ltac refill x :=
  let E := fresh "E" in
  destruct (Z.eqb_spec x 0) as [E|E];
  [reflexivity
  | cbv iota; destruct (Z.eqb_spec x 0); [contradiction | reflexivity]].

(** C5. Resolution substitutes the default for each field left at its zero
    value and keeps every other field: Skipper, Max 10, Burst 10,
    StatusCode 429, the default message, the sliding-window algorithm, the
    prefix echo_limiter, one minute, the key function reading the real IP,
    the handler writing the resolved status and message, and the error
    handler returning an HTTP error 500. Rediser and SkipOnError are kept.
    Equal inputs resolve to equal configurations, and resolving a resolved
    configuration changes nothing. *)
Theorem resolve_substitutes_defaults (cfg : Config) :
  Skipper (resolve cfg) =
    Some (match Skipper cfg with Some f => f | None => middleware_DefaultSkipper end) /\
  Rediser (resolve cfg) = Rediser cfg /\
  Max (resolve cfg) = (if Max cfg =? 0 then 10 else Max cfg) /\
  Burst (resolve cfg) = (if Burst cfg =? 0 then 10 else Burst cfg) /\
  StatusCode (resolve cfg) = (if StatusCode cfg =? 0 then 429 else StatusCode cfg) /\
  Message (resolve cfg) =
    (if String.eqb (Message cfg) ""
     then "Too many requests, please try again later." else Message cfg) /\
  Algorithm (resolve cfg) =
    (if (Algorithm cfg =? 0)%N then SlidingWindowAlgorithm else Algorithm cfg) /\
  Prefix (resolve cfg) =
    (if String.eqb (Prefix cfg) "" then "echo_limiter" else Prefix cfg) /\
  SkipOnError (resolve cfg) = SkipOnError cfg /\
  Period (resolve cfg) =
    (if Period cfg =? 0 then 60 * 1000000000 else Period cfg) /\
  (forall ctx,
      call_Key (resolve cfg) ctx =
      match Key cfg with
      | Some (KeyOf f) => trigger (CallKey f ctx)
      | _ => trigger (RealIP ctx)
      end) /\
  (forall ctx,
      call_Handler (resolve cfg) ctx =
      match Handler cfg with
      | Some (HandlerOf f) => trigger (CallHandler f ctx)
      | _ => trigger (CtxString ctx (StatusCode (resolve cfg)) (Message (resolve cfg)))
      end) /\
  (forall err ctx,
      call_ErrHandler (resolve cfg) err ctx =
      match ErrHandler cfg with
      | Some (ErrHandlerOf f) => trigger (CallErrHandler f err ctx)
      | _ => Ret (Some (NewHTTPError 500 err))
      end) /\
  (forall cfg', cfg' = cfg -> resolve cfg' = resolve cfg) /\
  resolve (resolve cfg) = resolve cfg.
Proof.
  assert (Hempty : forall s, String.eqb s "" = is_empty s) by (intros [|? ?]; reflexivity).
  rewrite !Hempty.
  repeat apply conj; try (rewrite resolve_eq; reflexivity).
  - intros ctx. unfold call_Key. rewrite resolve_eq. cbn [Key].
    destruct (Key cfg) as [[|f]|]; reflexivity.
  - intros ctx. unfold call_Handler. rewrite (resolve_eq cfg) at 1. cbn [Handler].
    destruct (Handler cfg) as [[|f]|]; reflexivity.
  - intros err ctx. unfold call_ErrHandler. rewrite resolve_eq. cbn [ErrHandler].
    destruct (ErrHandler cfg) as [[|f]|]; reflexivity.
  - intros cfg' ->. reflexivity.
  - rewrite (resolve_eq (resolve cfg)). rewrite !resolve_eq. fields.
    f_equal.
    + refill (Max cfg).
    + refill (Burst cfg).
    + refill (StatusCode cfg).
    + now destruct (Message cfg).
    + destruct (N.eqb_spec (Algorithm cfg) 0) as [E|E]; cbv iota.
      * now destruct (SlidingWindowAlgorithm =? 0)%N.
      * now destruct (N.eqb_spec (Algorithm cfg) 0).
    + now destruct (Prefix cfg).
    + refill (Period cfg).
Qed.

(** C7, as the code has it. In the resolved configuration Max, Burst,
    StatusCode and Period are not zero, and each is positive when the
    supplied value is not negative; Algorithm is positive when the supplied
    identifier or the sliding-window identifier is not zero. *)
Theorem resolved_numbers_are_not_zero (cfg : Config) (mw : MiddlewareFunc) :
  NewWithConfig cfg = Done mw ->
  (Max (resolve cfg) <> 0 /\ (0 <= Max cfg -> 0 < Max (resolve cfg))) /\
  (Burst (resolve cfg) <> 0 /\ (0 <= Burst cfg -> 0 < Burst (resolve cfg))) /\
  (StatusCode (resolve cfg) <> 0 /\
   (0 <= StatusCode cfg -> 0 < StatusCode (resolve cfg))) /\
  (Period (resolve cfg) <> 0 /\ (0 <= Period cfg -> 0 < Period (resolve cfg))) /\
  ((Algorithm cfg <> 0 \/ SlidingWindowAlgorithm <> 0)%N ->
   (0 < Algorithm (resolve cfg))%N).
Proof.
  intros _. rewrite resolve_eq. fields. unfold time.Minute, time.Second, time.Nanosecond.
  repeat apply conj;
    try (destruct (Z.eqb_spec (Max cfg) 0); lia);
    try (destruct (Z.eqb_spec (Burst cfg) 0); lia);
    try (destruct (Z.eqb_spec (StatusCode cfg) 0); lia);
    try (destruct (Z.eqb_spec (Period cfg) 0); lia).
  intros [H|H]; destruct (N.eqb_spec (Algorithm cfg) 0); lia.
Qed.

(** C8. [NewWithConfig] panics, with the error "redis client is missing",
    exactly when Rediser is nil, and then there is no handler at all; it
    returns a middleware exactly when Rediser is set. *)
Theorem construction_needs_rediser (cfg : Config) :
  (NewWithConfig cfg = Panicked (errors_New "redis client is missing") <->
   Rediser cfg = None) /\
  ((exists mw, NewWithConfig cfg = Done mw) <-> Rediser cfg <> None) /\
  ((forall mw, NewWithConfig cfg <> Done mw) <-> Rediser cfg = None).
Proof.
  unfold NewWithConfig. destruct (Rediser cfg) as [rd|].
  - repeat split; try discriminate; try congruence.
    + intros _. eexists. reflexivity.
    + intros H. exfalso. eapply H. reflexivity.
  - repeat split; try discriminate; try congruence.
    intros [mw H]. discriminate.
Qed.

(** C9. Every run of the handler ends, by returning: it follows one of
    the paths of [handled], asks the skip predicate once, calls the engine
    at most once, and calls at most one of the next handler, the limit
    handler and a caller-supplied error handler, never before its last
    event. *)
Theorem one_engine_call_per_request
        (S : Type) (env : Env S) (s : S) (cfg : Config) (mw : MiddlewareFunc)
        (next : echo_HandlerFunc) (ctx : echo_Context) :
  NewWithConfig cfg = Done mw ->
  exists tr r s' rd,
    run env (mw next ctx) s = (tr, Done r, s') /\
    handled (resolve cfg) (NewLimiter rd) (limit_of (resolve cfg)) next ctx tr (Done r) /\
    length (skipper_answers tr) = 1%nat /\
    (length (allow_calls tr) <= 1)%nat /\
    (length (forwards tr) + length (limit_handler_results tr)
     + length (err_handler_calls tr) <= 1)%nat /\
    (length tr <= 8)%nat /\
    forwards (removelast tr) = [] /\
    limit_handler_results (removelast tr) = [] /\
    err_handler_calls (removelast tr) = [].
Proof.
  intros Hnew.
  destruct (run_total _ _ env (mw next ctx) s) as (tr & out & s' & Hrun).
  destruct (served _ _ _ _ _ _ _ _ _ _ Hnew Hrun) as (rd & Hrd & Hpath).
  assert (exists r, out = Done r) as [r ->] by (destruct Hpath; eexists; reflexivity).
  exists tr, r, s', rd. split; [assumption|]. split; [assumption|].
  clear Hrun Hnew.
  inversion Hpath; subst;
    repeat match goal with
           | kf : Key_t |- _ => destruct kf
           | hf : Handler_t |- _ => destruct hf
           end;
    cbn [skipper_answers allow_calls forwards limit_handler_results err_handler_calls
         flat_map app Key_event Handler_event length Nat.add removelast];
    repeat apply conj; (reflexivity || lia).
Qed.

(** C10. [New r] is [NewWithConfig] of [DefaultConfig] with Rediser set
    to r: the two constructions panic together or return handlers with the
    same runs, and with a handle both are the handler of the documented
    defaults. *)
Theorem New_is_NewWithConfig_of_defaults (r : option redis_Client) :
  New r = NewWithConfig (set_Rediser r DefaultConfig) /\
  (forall (S : Type) (env : Env S) (s : S) next ctx,
      match New r, NewWithConfig (set_Rediser r DefaultConfig) with
      | Done mw1, Done mw2 => run env (mw1 next ctx) s = run env (mw2 next ctx) s
      | Panicked v1, Panicked v2 => v1 = v2
      | _, _ => False
      end) /\
  resolve (set_Rediser r DefaultConfig) =
    mkConfig (Some middleware_DefaultSkipper) r 10 10 429
             "Too many requests, please try again later." SlidingWindowAlgorithm
             "echo_limiter" false time.Minute (Some Key_RealIP)
             (Some Handler_String) (Some ErrHandler_HTTPError) /\
  match r with
  | Some rd =>
      New r = Done (handle (resolve (set_Rediser r DefaultConfig)) (NewLimiter rd)
                           (go_limiter.mkLimit time.Minute SlidingWindowAlgorithm 10 10))
  | None => New r = Panicked (errors_New "redis client is missing")
  end.
Proof.
  assert (Hres : resolve (set_Rediser r DefaultConfig) =
    mkConfig (Some middleware_DefaultSkipper) r 10 10 429
             "Too many requests, please try again later." SlidingWindowAlgorithm
             "echo_limiter" false time.Minute (Some Key_RealIP)
             (Some Handler_String) (Some ErrHandler_HTTPError)).
  { rewrite resolve_eq. cbn.
    destruct (N.eqb_spec SlidingWindowAlgorithm 0) as [->|]; reflexivity. }
  repeat apply conj.
  - reflexivity.
  - intros S env s next ctx. unfold New. cbv zeta.
    destruct (NewWithConfig (set_Rediser r DefaultConfig)); reflexivity.
  - exact Hres.
  - destruct r as [rd|]; [|reflexivity].
    unfold New, NewWithConfig. cbn [Rediser set_Rediser]. cbv zeta.
    unfold limit_of. rewrite Hres. reflexivity.
Qed.

(** ** Further properties of the resolver and of the handler *)

(** [NewWithConfig], with its local bindings unfolded. *)
Lemma NewWithConfig_eq (cfg : Config) :
  NewWithConfig cfg =
  match Rediser cfg with
  | None => Panicked (errors_New "redis client is missing")
  | Some rd => Done (handle (resolve cfg) (NewLimiter rd) (limit_of (resolve cfg)))
  end.
Proof. reflexivity. Qed.

Ltac same_handler :=
  rewrite !NewWithConfig_eq, !resolve_eq;
  unfold handle, call_Skipper, call_Key, call_Handler, call_ErrHandler,
    Handler_event, limit_of, set_Prefix, set_StatusCode, set_Message, set_Handler,
    set_ErrHandler, set_SkipOnError;
  fields.

(** X1. A request that is not skipped calls the engine exactly once, on
    the limiter built from the configured Rediser, with the limit made of
    the resolved Period, Algorithm, Max (as Rate) and Burst: a zero in one
    of them never reaches the engine. *)
Theorem engine_called_once_with_resolved_limit
        (S : Type) (env : Env S) (s s' : S) (cfg : Config) (mw : MiddlewareFunc)
        (next : echo_HandlerFunc) (ctx : echo_Context) (tr : list Obs)
        (out : Outcome error (option error)) :
  NewWithConfig cfg = Done mw ->
  run env (mw next ctx) s = (tr, out, s') ->
  In false (skipper_answers tr) ->
  exists rd key,
    Rediser cfg = Some rd /\
    allow_calls tr =
      [(NewLimiter rd, key,
        go_limiter.mkLimit
          (if Period cfg =? 0 then time.Minute else Period cfg)
          (if (Algorithm cfg =? 0)%N then SlidingWindowAlgorithm else Algorithm cfg)
          (if Max cfg =? 0 then 10 else Max cfg)
          (if Burst cfg =? 0 then 10 else Burst cfg))].
Proof.
  intros Hnew Hrun Hskip.
  destruct (engine_call_arguments _ _ _ _ _ _ _ _ _ _ Hnew Hrun Hskip)
    as (rd & key & Hrd & _ & Hcalls).
  exists rd, key. split; [assumption|].
  rewrite Hcalls. unfold limit_of. rewrite resolve_eq. reflexivity.
Qed.

(** X2. The limit a response advertises is the rate the engine was asked to
    enforce: whenever X-RateLimit-Limit is written, its value is the decimal
    numeral of the Rate of the limit passed to the one engine call of that
    request. *)
Theorem advertised_limit_is_enforced_rate
        (S : Type) (env : Env S) (s s' : S) (cfg : Config) (mw : MiddlewareFunc)
        (next : echo_HandlerFunc) (ctx : echo_Context) (tr : list Obs)
        (out : Outcome error (option error)) (value : string) :
  NewWithConfig cfg = Done mw ->
  run env (mw next ctx) s = (tr, out, s') ->
  In ("X-RateLimit-Limit", value) (headers_set tr) ->
  exists l key limit,
    allow_calls tr = [(l, key, limit)] /\
    value = strconv.Itoa (go_limiter.Rate limit).
Proof.
  intros Hnew Hrun Hin.
  destruct (served _ _ _ _ _ _ _ _ _ _ Hnew Hrun) as (rd & Hrd & Hpath).
  on_paths Hpath; absurd_path.
  all: match goal with
       | H : (_, _) = (_, _) |- _ => apply (f_equal snd) in H; cbn [snd] in H; subst value
       end.
  all: do 3 eexists; split; reflexivity.
Qed.

(** X3. The logger receives exactly the errors of the engine: one entry
    when the engine call failed, under either error policy, and nothing on
    a skipped, allowed or denied request. *)
Theorem logged_errors_are_engine_errors
        (S : Type) (env : Env S) (s s' : S) (cfg : Config) (mw : MiddlewareFunc)
        (next : echo_HandlerFunc) (ctx : echo_Context) (tr : list Obs)
        (out : Outcome error (option error)) :
  NewWithConfig cfg = Done mw ->
  run env (mw next ctx) s = (tr, out, s') ->
  logged tr = engine_errors tr /\ (length (logged tr) <= 1)%nat.
Proof.
  intros Hnew Hrun.
  destruct (served _ _ _ _ _ _ _ _ _ _ Hnew Hrun) as (rd & Hrd & Hpath).
  unfold engine_errors.
  on_paths Hpath; split; cbn [length]; (reflexivity || lia).
Qed.

(** X4. The headers a request gets from the middleware are none, or
    Retry-After alone, or the three quota headers in the order Limit,
    Remaining, Reset: the retry hint and the quota headers never occur
    together and no name is written twice. *)
Theorem header_families_are_exclusive
        (S : Type) (env : Env S) (s s' : S) (cfg : Config) (mw : MiddlewareFunc)
        (next : echo_HandlerFunc) (ctx : echo_Context) (tr : list Obs)
        (out : Outcome error (option error)) :
  NewWithConfig cfg = Done mw ->
  run env (mw next ctx) s = (tr, out, s') ->
  map fst (headers_set tr) = [] \/
  map fst (headers_set tr) = ["Retry-After"] \/
  map fst (headers_set tr) = quota_headers.
Proof.
  intros Hnew Hrun.
  destruct (served _ _ _ _ _ _ _ _ _ _ Hnew Hrun) as (rd & Hrd & Hpath).
  on_paths Hpath; cbn [map fst]; auto.
Qed.

(** X5. The next handler is called at most once, and it is called exactly
    when the skip predicate answered true, or the engine failed under
    SkipOnError, or the engine allowed the request. *)
Theorem forwarded_exactly_when
        (S : Type) (env : Env S) (s s' : S) (cfg : Config) (mw : MiddlewareFunc)
        (next : echo_HandlerFunc) (ctx : echo_Context) (tr : list Obs)
        (out : Outcome error (option error)) :
  NewWithConfig cfg = Done mw ->
  run env (mw next ctx) s = (tr, out, s') ->
  (length (forwards tr) <= 1)%nat /\
  (forwards tr <> [] <->
   In true (skipper_answers tr) \/
   (SkipOnError cfg = true /\ exists err, In (inr err) (allow_answers tr)) \/
   (exists result,
       In (inl result) (allow_answers tr) /\ go_limiter.Allowed result = true)).
Proof.
  intros Hnew Hrun.
  destruct (served _ _ _ _ _ _ _ _ _ _ Hnew Hrun) as (rd & Hrd & Hpath).
  assert (Hso : SkipOnError (resolve cfg) = SkipOnError cfg)
    by (rewrite resolve_eq; reflexivity).
  on_paths Hpath; (split; [cbn [length]; lia|]); split.
  all: try (intros Hne; exfalso; apply Hne; reflexivity).
  all: try (intros [H' | [[Hs [e H']] | [res [H' Ha]]]]; absurd_path; fail).
  all: try (intros _; discriminate).
  all: intros _.
  all: try (left; left; reflexivity).
  all: try (right; left; split; [congruence | eexists; left; reflexivity]).
  all: right; right; eexists; split; [left; reflexivity | assumption].
Qed.

(** X6. After resolution no function field is nil and neither Message nor
    Prefix is empty, whatever the caller supplied. *)
Theorem resolved_config_has_no_nil (cfg : Config) :
  Skipper (resolve cfg) <> None /\
  Key (resolve cfg) <> None /\
  Handler (resolve cfg) <> None /\
  ErrHandler (resolve cfg) <> None /\
  Message (resolve cfg) <> "" /\
  Prefix (resolve cfg) <> "".
Proof.
  rewrite resolve_eq. fields.
  repeat apply conj; try discriminate.
  - destruct (Message cfg); discriminate.
  - destruct (Prefix cfg); discriminate.
Qed.

(** X7. The Prefix field has no effect: two configurations that differ
    only in Prefix give the same middleware. *)
Theorem Prefix_is_never_read (cfg : Config) (prefix : string) :
  NewWithConfig (set_Prefix prefix cfg) = NewWithConfig cfg.
Proof. same_handler. reflexivity. Qed.

(** X8. With a Handler of the caller's, StatusCode and Message have no
    effect: the middleware is the same whatever they are. *)
Theorem custom_Handler_ignores_StatusCode_and_Message
        (cfg : Config) (f : LimitFun) (code : Z) (message : string) :
  NewWithConfig (set_Handler (Some (HandlerOf f))
                   (set_StatusCode code (set_Message message cfg)))
  = NewWithConfig (set_Handler (Some (HandlerOf f)) cfg).
Proof. same_handler. reflexivity. Qed.

(** X9. With SkipOnError set, ErrHandler has no effect: the middleware is
    the same whatever error handler is configured. *)
Theorem SkipOnError_ignores_ErrHandler (cfg : Config) (h : option ErrHandler_t) :
  NewWithConfig (set_SkipOnError true (set_ErrHandler h cfg))
  = NewWithConfig (set_SkipOnError true cfg).
Proof. same_handler. reflexivity. Qed.

(** X10. [New(rediser)] is the middleware of [Config{Rediser: rediser}]:
    writing the defaults out, as [DefaultConfig] does, and leaving every
    field at zero come to the same. *)
Theorem New_is_NewWithConfig_of_Rediser_alone (rediser : option redis_Client) :
  New rediser = NewWithConfig (Config_of_Rediser rediser).
Proof.
  unfold New. cbv zeta. same_handler.
  unfold DefaultConfig, set_Rediser, Config_of_Rediser. fields. cbn [is_empty].
  destruct (SlidingWindowAlgorithm =? 0)%N; reflexivity.
Qed.

(** X11. When the engine's duration is a whole number k of seconds, the
    timestamp written is the epoch second of the clock plus k: Retry-After
    on a denied request, X-RateLimit-Reset on an allowed one. *)
Theorem whole_seconds_are_added_to_the_epoch_second
        (S : Type) (env : Env S) (s s' : S) (cfg : Config) (mw : MiddlewareFunc)
        (next : echo_HandlerFunc) (ctx : echo_Context) (tr : list Obs)
        (out : Outcome error (option error)) (result : go_limiter.Result) (k : Z) :
  NewWithConfig cfg = Done mw ->
  run env (mw next ctx) s = (tr, out, s') ->
  In (inl result) (allow_answers tr) ->
  exists now,
    clock_reads tr = [now] /\
    (go_limiter.Allowed result = false ->
     go_limiter.RetryAfter result = k * time.Second ->
     headers_set tr = [("Retry-After", strconv.FormatInt (time.Unix now + k))]) /\
    (go_limiter.Allowed result = true ->
     go_limiter.ResetAfter result = k * time.Second ->
     In ("X-RateLimit-Reset", strconv.FormatInt (time.Unix now + k)) (headers_set tr)).
Proof.
  intros Hnew Hrun Hallow.
  destruct (served _ _ _ _ _ _ _ _ _ _ Hnew Hrun) as (rd & Hrd & Hpath).
  on_paths Hpath; absurd_path; exists now; (split; [reflexivity|]); split;
    intros Ha Hk; try congruence; rewrite Hk, Unix_Add_seconds; auto.
Qed.

(** X12. The timestamp of Retry-After is the retry instant rounded down to
    the second: it is never later than the clock reading plus RetryAfter,
    and less than one second earlier. *)
Theorem Retry_After_is_rounded_down
        (S : Type) (env : Env S) (s s' : S) (cfg : Config) (mw : MiddlewareFunc)
        (next : echo_HandlerFunc) (ctx : echo_Context) (tr : list Obs)
        (out : Outcome error (option error)) (result : go_limiter.Result) :
  NewWithConfig cfg = Done mw ->
  run env (mw next ctx) s = (tr, out, s') ->
  In (inl result) (allow_answers tr) ->
  go_limiter.Allowed result = false ->
  exists now n,
    clock_reads tr = [now] /\
    headers_set tr = [("Retry-After", strconv.FormatInt n)] /\
    n * time.Second <= now + go_limiter.RetryAfter result < (n + 1) * time.Second.
Proof.
  intros Hnew Hrun Hallow Hdenied.
  destruct (served _ _ _ _ _ _ _ _ _ _ Hnew Hrun) as (rd & Hrd & Hpath).
  on_paths Hpath; absurd_path.
  all: exists now, (time.Unix (time.Add now (go_limiter.RetryAfter result))).
  all: split; [reflexivity | split; [reflexivity|]].
  all: unfold time.Unix, time.Add, time.Second, time.Nanosecond.
  all: change (1000000000 * 1) with 1000000000.
  all: pose proof (Z.div_mod (now + go_limiter.RetryAfter result) 1000000000 ltac:(lia)).
  all: pose proof (Z.mod_pos_bound (now + go_limiter.RetryAfter result) 1000000000
                     ltac:(lia)).
  all: lia.
Qed.

End Properties.

(** * The middleware on explicit requests *)

#[local] Existing Instance Example.world.

Lemma request_eq (e : Env Example.Response) (cfg : Config) :
  run e (Example.handler_of cfg tt "10.0.0.1") Example.fresh =
  (Example.trace e cfg, Example.outcome e cfg, Example.response e cfg).
Proof.
  unfold Example.trace, Example.outcome, Example.response, Example.request.
  now destruct (run e (Example.handler_of cfg tt "10.0.0.1") Example.fresh) as [[? ?] ?].
Qed.

Lemma NewWithConfig_handler_of (cfg : Config) :
  Rediser cfg = Some tt -> NewWithConfig cfg = Done (Example.handler_of cfg).
Proof. intros H. unfold NewWithConfig, Example.handler_of. rewrite H. reflexivity. Qed.

(** The example of the README: 3 requests per 10 seconds, an allowed
    request. *)
Example readme_allowed :
  NewWithConfig Example.readme_config = Done (Example.handler_of Example.readme_config) /\
  Example.response Example.env_allowed Example.readme_config =
    Example.mkResponse
      [("X-RateLimit-Limit", "3"); ("X-RateLimit-Remaining", "2");
       ("X-RateLimit-Reset", "1585918925")] 200 "Hello, World!" /\
  Example.outcome Example.env_allowed Example.readme_config = Done None.
Proof.
  split; [now apply NewWithConfig_handler_of | split; vm_compute; reflexivity].
Qed.

(** ... and a denied one. *)
Example readme_denied :
  Example.response Example.env_denied Example.readme_config =
    Example.mkResponse
      [("Retry-After", "1585918950")] 429 "Too many requests, please try again later." /\
  Example.outcome Example.env_denied Example.readme_config = Done None.
Proof. split; vm_compute; reflexivity. Qed.

(** ** The theorems at these requests *)

Lemma allowed_sets_quota_headers_witness :
  NewWithConfig Example.readme_config = Done (Example.handler_of Example.readme_config) /\
  In false (skipper_answers (Example.trace Example.env_allowed Example.readme_config)) /\
  In (inl Example.allowed_result)
     (allow_answers (Example.trace Example.env_allowed Example.readme_config)) /\
  headers_set (Example.trace Example.env_allowed Example.readme_config) =
    [("X-RateLimit-Limit", "3"); ("X-RateLimit-Remaining", "2");
     ("X-RateLimit-Reset", "1585918925")] /\
  forwards (Example.trace Example.env_allowed Example.readme_config) =
    [(tt, "10.0.0.1", None)] /\
  Example.outcome Example.env_allowed Example.readme_config = Done None.
Proof.
  assert (Hnew : NewWithConfig Example.readme_config
                 = Done (Example.handler_of Example.readme_config))
    by now apply NewWithConfig_handler_of.
  assert (Hskip : In false (skipper_answers
                              (Example.trace Example.env_allowed Example.readme_config)))
    by (vm_compute; auto).
  assert (Hallow : In (inl Example.allowed_result)
                      (allow_answers
                         (Example.trace Example.env_allowed Example.readme_config)))
    by (vm_compute; auto).
  destruct (allowed_sets_quota_headers _ _ _ _ _ _ _ _ _ _ Hnew
              (request_eq Example.env_allowed Example.readme_config)) as [Hall _].
  destruct (Hall Example.allowed_result Hskip Hallow eq_refl)
    as (now & r & Hclock & Hhdr & Hfwd & Hout).
  vm_compute in Hclock. injection Hclock as <-.
  pose proof Hfwd as Hr. vm_compute in Hr. injection Hr as <-.
  repeat apply conj; assumption.
Defined.



Lemma engine_error_policy_witness :
  NewWithConfig Example.readme_config = Done (Example.handler_of Example.readme_config) /\
  NewWithConfig Example.fail_open_config
    = Done (Example.handler_of Example.fail_open_config) /\
  In false (skipper_answers (Example.trace Example.env_failed Example.readme_config)) /\
  In Example.failed (allow_answers (Example.trace Example.env_failed Example.readme_config)) /\
  (* without SkipOnError: an HTTP error 500, nothing forwarded, no header *)
  Example.outcome Example.env_failed Example.readme_config
    = Done (Some (NewHTTPError 500 Example.refused)) /\
  forwards (Example.trace Example.env_failed Example.readme_config) = [] /\
  headers_set (Example.trace Example.env_failed Example.readme_config) = [] /\
  logged (Example.trace Example.env_failed Example.readme_config)
    = [Example.refused] /\
  (* with SkipOnError: the next handler runs *)
  forwards (Example.trace Example.env_failed Example.fail_open_config)
    = [(tt, "10.0.0.1", None)] /\
  headers_set (Example.trace Example.env_failed Example.fail_open_config) = [] /\
  Example.outcome Example.env_failed Example.fail_open_config = Done None.
Proof.
  assert (Hnew : NewWithConfig Example.readme_config
                 = Done (Example.handler_of Example.readme_config))
    by now apply NewWithConfig_handler_of.
  assert (Hnew' : NewWithConfig Example.fail_open_config
                  = Done (Example.handler_of Example.fail_open_config))
    by now apply NewWithConfig_handler_of.
  assert (Hskip : In false (skipper_answers
                              (Example.trace Example.env_failed Example.readme_config)))
    by (vm_compute; auto).
  assert (Hallow : In Example.failed
                      (allow_answers
                         (Example.trace Example.env_failed Example.readme_config)))
    by (vm_compute; auto).
  assert (Hskip' : In false (skipper_answers
                               (Example.trace Example.env_failed Example.fail_open_config)))
    by (vm_compute; auto).
  assert (Hallow' : In Example.failed
                       (allow_answers
                          (Example.trace Example.env_failed Example.fail_open_config)))
    by (vm_compute; auto).
  destruct (engine_error_policy _ _ _ _ _ _ _ _ _ _ _ Hnew
              (request_eq Example.env_failed Example.readme_config) Hskip Hallow)
    as (Hlog & Hhdr & _ & Hclosed).
  destruct (Hclosed eq_refl) as (Hfwd & _ & Hout & _).
  destruct (engine_error_policy _ _ _ _ _ _ _ _ _ _ _ Hnew'
              (request_eq Example.env_failed Example.fail_open_config) Hskip' Hallow')
    as (_ & Hhdr' & Hopen & _).
  destruct (Hopen eq_refl) as (r & Hfwd' & Hout').
  pose proof Hfwd' as Hr. vm_compute in Hr. injection Hr as <-.
  repeat apply conj; assumption.
Defined.

Lemma skipped_request_is_forwarded_witness :
  NewWithConfig Example.skipping_config
    = Done (Example.handler_of Example.skipping_config) /\
  In true (skipper_answers (Example.trace Example.env_allowed Example.skipping_config)) /\
  Example.trace Example.env_allowed Example.skipping_config =
    [Observed (CallSkipper (SkipperOf true) "10.0.0.1") true;
     Observed (CallNext tt "10.0.0.1") None] /\
  allow_calls (Example.trace Example.env_allowed Example.skipping_config) = [] /\
  key_answers (Example.trace Example.env_allowed Example.skipping_config) = [] /\
  headers_set (Example.trace Example.env_allowed Example.skipping_config) = [] /\
  Example.outcome Example.env_allowed Example.skipping_config = Done None.
Proof.
  assert (Hnew : NewWithConfig Example.skipping_config
                 = Done (Example.handler_of Example.skipping_config))
    by now apply NewWithConfig_handler_of.
  assert (Hskip : In true (skipper_answers
                             (Example.trace Example.env_allowed Example.skipping_config)))
    by (vm_compute; auto).
  destruct (skipped_request_is_forwarded _ _ _ _ _ _ _ _ _ _ Hnew
              (request_eq Example.env_allowed Example.skipping_config) Hskip)
    as (sk & r & Hsk & Htr & Hout & Hfwd & Hcalls & Hkeys & Hhdr).
  vm_compute in Hsk. injection Hsk as <-.
  pose proof Hfwd as Hr. vm_compute in Hr. injection Hr as <-.
  repeat apply conj; assumption.
Defined.

Lemma resolved_numbers_are_not_zero_witness :
  NewWithConfig Example.readme_config = Done (Example.handler_of Example.readme_config) /\
  0 < Max (resolve Example.readme_config) /\
  0 < Burst (resolve Example.readme_config) /\
  0 < StatusCode (resolve Example.readme_config) /\
  0 < Period (resolve Example.readme_config) /\
  (0 < Algorithm (resolve Example.readme_config))%N.
Proof.
  assert (Hnew : NewWithConfig Example.readme_config
                 = Done (Example.handler_of Example.readme_config))
    by now apply NewWithConfig_handler_of.
  destruct (resolved_numbers_are_not_zero _ _ Hnew)
    as ((_ & Hm) & (_ & Hb) & (_ & Hs) & (_ & Hp) & Ha).
  repeat apply conj;
    [ assumption
    | apply Hm; vm_compute; discriminate
    | apply Hb; vm_compute; discriminate
    | apply Hs; vm_compute; discriminate
    | apply Hp; vm_compute; discriminate
    | apply Ha; left; vm_compute; discriminate ].
Defined.

Lemma one_engine_call_per_request_witness :
  NewWithConfig Example.readme_config = Done (Example.handler_of Example.readme_config) /\
  exists tr r s',
    run Example.env_denied (Example.handler_of Example.readme_config tt "10.0.0.1")
        Example.fresh = (tr, Done r, s') /\
    (length (allow_calls tr) <= 1)%nat /\
    (length tr <= 8)%nat.
Proof.
  assert (Hnew : NewWithConfig Example.readme_config
                 = Done (Example.handler_of Example.readme_config))
    by now apply NewWithConfig_handler_of.
  split; [assumption|].
  destruct (one_engine_call_per_request _ Example.env_denied Example.fresh _ _ tt
              "10.0.0.1" Hnew)
    as (tr & r & s' & rd & Hrun & _ & _ & Hcalls & _ & Hlen & _).
  exists tr, r, s'. repeat apply conj; assumption.
Defined.

(** ** Where the code departs from the specification *)

(** The status of the default engine-error response is not always
    distinct from the denial status: with StatusCode 500 configured, the
    default error handler answers an engine failure with the very status
    of a denial. *)
Lemma error_status_can_equal_denial_status :
  ~ (forall (cfg : Config) (mw : MiddlewareFunc) (e : Env Example.Response)
            (ctx : string) (tr : list Obs) (out : Outcome error (option error))
            (s' : Example.Response) (err : error),
        NewWithConfig cfg = Done mw ->
        SkipOnError cfg = false ->
        ErrHandler cfg = None ->
        run e (mw tt ctx) Example.fresh = (tr, out, s') ->
        In false (skipper_answers tr) ->
        In (inr err) (allow_answers tr) ->
        exists code,
          out = Done (Some (NewHTTPError code err)) /\
          code <> StatusCode (resolve cfg)).
Proof.
  intros H.
  destruct (H Example.status500_config _ Example.env_failed "10.0.0.1" _ _ _
              Example.refused
              (NewWithConfig_handler_of Example.status500_config eq_refl)
              eq_refl eq_refl
              (request_eq Example.env_failed Example.status500_config))
    as (code & Hout & Hne).
  - vm_compute. auto.
  - vm_compute. auto.
  - vm_compute in Hout. injection Hout as <-. apply Hne. vm_compute. reflexivity.
Qed.


(** The run of that request. *)
Example invalid_status_panics :
  Example.ending Example.echo_denied Example.invalid_status_config =
    PanicsIn (Any (CtxString "10.0.0.1" (-1) "Too many requests, please try again later."))
             Example.invalid_WriteHeader_code /\
  Example.response_exec Example.echo_denied Example.invalid_status_config =
    Example.mkResponse [("Retry-After", "1585918950")] 0 "".
Proof. split; vm_compute; reflexivity. Qed.

(** Resolved numbers are not always positive: a negative Max is not
    zero, so it is kept. *)
Lemma negative_Max_is_kept :
  ~ (forall (cfg : Config) (mw : MiddlewareFunc),
        NewWithConfig cfg = Done mw ->
        0 < Max (resolve cfg) /\ 0 < Burst (resolve cfg) /\
        0 < StatusCode (resolve cfg) /\ (0 < Algorithm (resolve cfg))%N /\
        0 < Period (resolve cfg)).
Proof.
  intros H.
  destruct (H Example.negative_max_config _
              (NewWithConfig_handler_of Example.negative_max_config eq_refl))
    as (Hmax & _).
  vm_compute in Hmax. discriminate.
Qed.

(** C6. The key the engine receives is the answer of the key function
    alone: for a request from 10.0.0.1 the engine is called with 10.0.0.1,
    not with echo_limiter:10.0.0.1 under the default prefix nor with
    api:10.0.0.1 when the prefix api is configured. *)
Theorem engine_key_has_no_prefix :
  NewWithConfig Example.readme_config = Done (Example.handler_of Example.readme_config) /\
  Prefix (resolve Example.readme_config) = "echo_limiter" /\
  map (fun c => snd (fst c))
      (allow_calls (Example.trace Example.env_allowed Example.readme_config))
    = ["10.0.0.1"] /\
  NewWithConfig Example.prefixed_config
    = Done (Example.handler_of Example.prefixed_config) /\
  Prefix (resolve Example.prefixed_config) = "api" /\
  map (fun c => snd (fst c))
      (allow_calls (Example.trace Example.env_allowed Example.prefixed_config))
    = ["10.0.0.1"] /\
  "10.0.0.1" <> "echo_limiter" ++ ":" ++ "10.0.0.1" /\
  "10.0.0.1" <> "api" ++ ":" ++ "10.0.0.1".
Proof.
  repeat apply conj;
    try (now apply NewWithConfig_handler_of);
    try (vm_compute; reflexivity);
    vm_compute; discriminate.
Qed.

(** ** The further properties at these requests *)

Lemma engine_called_once_with_resolved_limit_witness :
  NewWithConfig Example.only_rediser = Done (Example.handler_of Example.only_rediser) /\
  In false (skipper_answers (Example.trace Example.env_allowed Example.only_rediser)) /\
  exists key,
    allow_calls (Example.trace Example.env_allowed Example.only_rediser) =
      [(NewLimiter tt, key,
        go_limiter.mkLimit (60 * time.Second) SlidingWindowAlgorithm 10 10)].
Proof.
  assert (Hnew : NewWithConfig Example.only_rediser
                 = Done (Example.handler_of Example.only_rediser))
    by now apply NewWithConfig_handler_of.
  assert (Hskip : In false (skipper_answers
                              (Example.trace Example.env_allowed Example.only_rediser)))
    by (vm_compute; auto).
  destruct (engine_called_once_with_resolved_limit _ _ _ _ _ _ _ _ _ _ Hnew
              (request_eq Example.env_allowed Example.only_rediser) Hskip)
    as (rd & key & Hrd & Hcalls).
  repeat apply conj; try assumption.
  exists key. destruct rd. exact Hcalls.
Defined.

Lemma advertised_limit_is_enforced_rate_witness :
  NewWithConfig Example.readme_config = Done (Example.handler_of Example.readme_config) /\
  In ("X-RateLimit-Limit", "3")
     (headers_set (Example.trace Example.env_allowed Example.readme_config)) /\
  exists l key limit,
    allow_calls (Example.trace Example.env_allowed Example.readme_config)
      = [(l, key, limit)] /\
    "3" = strconv.Itoa (go_limiter.Rate limit).
Proof.
  assert (Hnew : NewWithConfig Example.readme_config
                 = Done (Example.handler_of Example.readme_config))
    by now apply NewWithConfig_handler_of.
  assert (Hin : In ("X-RateLimit-Limit", "3")
                   (headers_set (Example.trace Example.env_allowed Example.readme_config)))
    by (vm_compute; auto).
  repeat apply conj; try assumption.
  exact (advertised_limit_is_enforced_rate _ _ _ _ _ _ _ _ _ _ _ Hnew
           (request_eq Example.env_allowed Example.readme_config) Hin).
Defined.

Lemma logged_errors_are_engine_errors_witness :
  NewWithConfig Example.fail_open_config
    = Done (Example.handler_of Example.fail_open_config) /\
  logged (Example.trace Example.env_failed Example.fail_open_config) = [Example.refused] /\
  logged (Example.trace Example.env_denied Example.fail_open_config) = [].
Proof.
  assert (Hnew : NewWithConfig Example.fail_open_config
                 = Done (Example.handler_of Example.fail_open_config))
    by now apply NewWithConfig_handler_of.
  destruct (logged_errors_are_engine_errors _ _ _ _ _ _ _ _ _ _ Hnew
              (request_eq Example.env_failed Example.fail_open_config)) as [Hfailed _].
  destruct (logged_errors_are_engine_errors _ _ _ _ _ _ _ _ _ _ Hnew
              (request_eq Example.env_denied Example.fail_open_config)) as [Hdenied _].
  repeat apply conj; assumption.
Defined.

Lemma header_families_are_exclusive_witness :
  NewWithConfig Example.readme_config = Done (Example.handler_of Example.readme_config) /\
  map fst (headers_set (Example.trace Example.env_denied Example.readme_config))
    = ["Retry-After"].
Proof.
  assert (Hnew : NewWithConfig Example.readme_config
                 = Done (Example.handler_of Example.readme_config))
    by now apply NewWithConfig_handler_of.
  split; [assumption|].
  destruct (header_families_are_exclusive _ _ _ _ _ _ _ _ _ _ Hnew
              (request_eq Example.env_denied Example.readme_config))
    as [H | [H | H]]; [vm_compute in H; discriminate | exact H
                      | vm_compute in H; discriminate].
Defined.

Lemma forwarded_exactly_when_witness :
  NewWithConfig Example.readme_config = Done (Example.handler_of Example.readme_config) /\
  forwards (Example.trace Example.env_allowed Example.readme_config) <> [] /\
  ~ forwards (Example.trace Example.env_denied Example.readme_config) <> [].
Proof.
  assert (Hnew : NewWithConfig Example.readme_config
                 = Done (Example.handler_of Example.readme_config))
    by now apply NewWithConfig_handler_of.
  destruct (forwarded_exactly_when _ _ _ _ _ _ _ _ _ _ Hnew
              (request_eq Example.env_allowed Example.readme_config)) as [_ [_ Hyes]].
  destruct (forwarded_exactly_when _ _ _ _ _ _ _ _ _ _ Hnew
              (request_eq Example.env_denied Example.readme_config)) as [_ [Hno _]].
  repeat apply conj; try assumption.
  - apply Hyes. right. right. exists Example.allowed_result.
    split; [vm_compute; auto | reflexivity].
  - intros Hne. destruct (Hno Hne) as [H | [[H _] | [res [H Ha]]]].
    + vm_compute in H. destruct H as [H | []]. discriminate.
    + discriminate.
    + vm_compute in H. destruct H as [H | []]. injection H as <-. discriminate.
Defined.

Lemma whole_seconds_are_added_to_the_epoch_second_witness :
  NewWithConfig Example.readme_config = Done (Example.handler_of Example.readme_config) /\
  In (inl Example.denied_result)
     (allow_answers (Example.trace Example.env_denied Example.readme_config)) /\
  headers_set (Example.trace Example.env_denied Example.readme_config)
    = [("Retry-After", strconv.FormatInt (1585918920 + 30))].
Proof.
  assert (Hnew : NewWithConfig Example.readme_config
                 = Done (Example.handler_of Example.readme_config))
    by now apply NewWithConfig_handler_of.
  assert (Hallow : In (inl Example.denied_result)
                      (allow_answers
                         (Example.trace Example.env_denied Example.readme_config)))
    by (vm_compute; auto).
  destruct (whole_seconds_are_added_to_the_epoch_second _ _ _ _ _ _ _ _ _ _
              Example.denied_result 30 Hnew
              (request_eq Example.env_denied Example.readme_config) Hallow)
    as (now & Hclock & Hdenied & _).
  vm_compute in Hclock. injection Hclock as <-.
  repeat apply conj; try assumption.
  exact (Hdenied eq_refl eq_refl).
Defined.

Lemma Retry_After_is_rounded_down_witness :
  NewWithConfig Example.readme_config = Done (Example.handler_of Example.readme_config) /\
  In (inl Example.denied_result)
     (allow_answers (Example.trace Example.env_denied Example.readme_config)) /\
  exists n,
    headers_set (Example.trace Example.env_denied Example.readme_config)
      = [("Retry-After", strconv.FormatInt n)] /\
    n * time.Second
      <= Example.at_time + go_limiter.RetryAfter Example.denied_result
      < (n + 1) * time.Second.
Proof.
  assert (Hnew : NewWithConfig Example.readme_config
                 = Done (Example.handler_of Example.readme_config))
    by now apply NewWithConfig_handler_of.
  assert (Hallow : In (inl Example.denied_result)
                      (allow_answers
                         (Example.trace Example.env_denied Example.readme_config)))
    by (vm_compute; auto).
  destruct (Retry_After_is_rounded_down _ _ _ _ _ _ _ _ _ _ _ Hnew
              (request_eq Example.env_denied Example.readme_config) Hallow eq_refl)
    as (now & n & Hclock & Hhdr & Hbound).
  vm_compute in Hclock. injection Hclock as <-.
  repeat apply conj; try assumption.
  exists n. split; assumption.
Defined.

